(** * Safe OCR Service: a shallow embedding of [main.py]

    The service is one FastAPI handler, [ocr_endpoint], and one helper,
    [perform_ocr_sync].  Both are effectful: they touch the local file
    system, consume the upload stream, call the OCR engine and print to
    standard output.  The embedding threads an explicit [state] through a
    small state-and-exception monad, so that Python's [try]/[except]/
    [finally] and [with] read here as they read in the source.

    What the handler does not own (the file system, the upload object, the
    engine) is described by a [world]: the outcomes those collaborators give
    when called. *)

From Stdlib Require Import ZArith NArith List String Ascii Lia Bool DecimalString.
From stdpp Require Import base gmap strings.
Import ListNotations.

Local Open Scope string_scope.
Local Open Scope list_scope.

Abbreviation bytes := (list Byte.byte).

(** ** Python values the handler manipulates *)

(** The exception classes that occur in [main.py] or that its collaborators
    raise.  [RuntimeError] also stands for its subclasses (pytesseract's
    TesseractError is one); [OSError] for the I/O errors of [tempfile], file
    objects and [os.remove]; [OtherException] for any other subclass of
    [Exception], carrying what [str(e)] gives. *)
Inductive exn : Type :=
| HTTPException (status_code : Z) (detail : string)
| RuntimeError (message : string)
| TesseractNotFoundError (message : string)
| OSError (message : string)
| OtherException (message : string).

Definition string_of_Z (z : Z) : string := NilZero.string_of_int (Z.to_int z).

(** [str(e)].  Starlette prints an HTTPException as its status, a colon and
    its detail; the other classes print their message. *)
Definition str (e : exn) : string :=
  match e with
  | HTTPException c d => string_of_Z c +:+ ": " +:+ d
  | RuntimeError m => m
  | TesseractNotFoundError m => m
  | OSError m => m
  | OtherException m => m
  end.

Inductive outcome (A : Type) : Type :=
| Ok (a : A)
| Raise (e : exn).
Arguments Ok {A} a.
Arguments Raise {A} e.

(** The upload as FastAPI hands it over: the declared media type (which may
    be absent) and the bytes behind [image.read]. *)
Record UploadFile : Type := mkUpload {
  content_type : option string;
  file : bytes }.

(** A Python [dict] with string keys and string values, in insertion order. *)
Definition dict : Type := list (string * string).

(** ** Effects *)

(** Every call that leaves the handler is recorded, in program order. *)
Inductive event : Type :=
| EvCreate (p : string)
| EvRead (size : N) (got : bytes)
| EvReadFailed (size : N)
| EvWrite (p : string) (data : bytes)
| EvFlush (p : string)
| EvOcr (p : string) (lang : string) (seen : option bytes)
| EvClose (p : string)
| EvExists (p : string) (answer : bool)
| EvRemove (p : string).

Record state : Type := mkState {
  disk : gmap string bytes;     (* the files other readers see, by path *)
  buffer : bytes;               (* written to [tmp] but not yet flushed *)
  stream : bytes;               (* what [image.read] has not yet delivered *)
  filepath : option string;     (* the local variable, unbound until line 60 *)
  trace : list event;
  stdout : list string }.

(** What the collaborators answer.  A storage fault is the message of the
    [OSError] the call raises; the engine answers from the path, the language
    and the bytes it finds under that path. *)
Record world : Type := mkWorld {
  tmp_name : string;
  create_fault : option string;
  read_fault : bytes -> option string;
  write_fault : bytes -> bytes -> option string;
  flush_fault : option string;
  close_fault : option string;
  engine : string -> string -> option bytes -> outcome string;
  remove_fault : option string }.

Definition M (A : Type) : Type := state -> outcome A * state.

Definition ret {A} (a : A) : M A := fun s => (Ok a, s).

Definition raise {A} (e : exn) : M A := fun s => (Raise e, s).

Definition bind {A B} (m : M A) (k : A -> M B) : M B :=
  fun s =>
    match m s with
    | (Ok a, s1) => k a s1
    | (Raise e, s1) => (Raise e, s1)
    end.

Notation "x <- m ;; k" := (bind m (fun x => k))
  (at level 100, m at next level, right associativity).
Notation "m ;; k" := (bind m (fun _ => k))
  (at level 100, right associativity).

(** [try: m  except Exception as e: h e]; a handler that raises replaces the
    exception it handles. *)
Definition try_except {A} (m : M A) (h : exn -> M A) : M A :=
  fun s =>
    match m s with
    | (Ok a, s1) => (Ok a, s1)
    | (Raise e, s1) => h e s1
    end.

(** [try: m  finally: fin].  The [finally] suite runs on every exit; when it
    raises, its exception is the one that leaves the statement, whatever [m]
    returned or raised. *)
Definition try_finally {A} (m : M A) (fin : M unit) : M A :=
  fun s =>
    match m s with
    | (r, s1) =>
        match fin s1 with
        | (Ok _, s2) => (r, s2)
        | (Raise e, s2) => (Raise e, s2)
        end
    end.

Definition log (ev : event) (s : state) : state :=
  mkState (disk s) (buffer s) (stream s) (filepath s) (trace s ++ [ev]) (stdout s).

Definition print (line : string) : M unit :=
  fun s =>
    (Ok tt, mkState (disk s) (buffer s) (stream s) (filepath s) (trace s)
                    (stdout s ++ [line])).

(** [bytes[:n]] and [bytes[n:]] with the count in binary, so that a chunk
    size of 2^20 stays cheap to evaluate. *)
Fixpoint takeN {A} (n : N) (l : list A) : list A :=
  match l with
  | [] => []
  | x :: l' => if (n =? 0)%N then [] else x :: takeN (N.pred n) l'
  end.

Fixpoint dropN {A} (n : N) (l : list A) : list A :=
  match l with
  | [] => []
  | x :: l' => if (n =? 0)%N then l else dropN (N.pred n) l'
  end.

(** Truth value of an optional string: [None] and the empty string are
    falsy. *)
Definition truthy (o : option string) : bool :=
  match o with
  | None => false
  | Some "" => false
  | Some _ => true
  end.

(** [o.startswith(pre)]; only evaluated on a truthy [o]. *)
Definition startswith (o : option string) (pre : string) : bool :=
  match o with
  | None => false
  | Some t => String.prefix pre t
  end.

(** What FastAPI sends for what the handler returns or raises: a returned
    dict is the JSON body of a 200, an HTTPException becomes its status with
    the body {"detail": detail}, any other exception the framework's plain
    500. *)
Inductive payload : Type :=
| JSON (d : dict)
| PlainText (t : string).

Record response : Type := mkResponse {
  status : Z;
  body : payload }.

Definition respond (r : outcome dict) : response :=
  match r with
  | Ok d => mkResponse 200 (JSON d)
  | Raise (HTTPException c d) => mkResponse c (JSON [("detail", d)])
  | Raise _ => mkResponse 500 (PlainText "Internal Server Error")
  end.

Section Collaborators.

Variable w : world.

(** [tempfile.NamedTemporaryFile(mode="w+b", delete=False)]: a new, empty
    file under a name no file has.  [tmp_name] is the name the facility
    settles on; should a file of that name exist, the facility gives up
    with FileExistsError. *)
Definition NamedTemporaryFile : M string :=
  fun s =>
    let s1 := log (EvCreate (tmp_name w)) s in
    match create_fault w with
    | Some m => (Raise (OSError m), s1)
    | None =>
        match disk s !! tmp_name w with
        | Some _ => (Raise (OSError "No usable temporary file name found"), s1)
        | None =>
            (Ok (tmp_name w),
             mkState (<[tmp_name w := []]> (disk s)) [] (stream s)
                     (filepath s) (trace s1) (stdout s))
        end
    end.

(** [await image.read(size)] *)
Definition UploadFile_read (size : N) : M bytes :=
  fun s =>
    match read_fault w (stream s) with
    | Some m => (Raise (OSError m), log (EvReadFailed size) s)
    | None =>
        let got := takeN size (stream s) in
        (Ok got,
         log (EvRead size got)
             (mkState (disk s) (buffer s) (dropN size (stream s))
                      (filepath s) (trace s) (stdout s)))
    end.

(** [tmp.write(content)]: the bytes go to the file object's buffer. *)
Definition tmp_write (tmp : string) (content : bytes) : M unit :=
  fun s =>
    let s1 := log (EvWrite tmp content) s in
    match write_fault w (buffer s) content with
    | Some m => (Raise (OSError m), s1)
    | None =>
        (Ok tt,
         mkState (disk s) (buffer s ++ content) (stream s) (filepath s)
                 (trace s1) (stdout s))
    end.

(** Moving the buffered bytes under the path, where other readers find
    them. *)
Definition commit (tmp : string) (s : state) : state :=
  mkState (alter (fun old => old ++ buffer s) tmp (disk s)) [] (stream s)
          (filepath s) (trace s) (stdout s).

(** [tmp.flush()] *)
Definition tmp_flush (tmp : string) : M unit :=
  fun s =>
    let s1 := log (EvFlush tmp) s in
    match flush_fault w with
    | Some m => (Raise (OSError m), s1)
    | None => (Ok tt, commit tmp s1)
    end.

(** Leaving the [with] block closes the file object, which flushes what is
    still buffered; with [delete=False] the file stays. *)
Definition tmp_close (tmp : string) : M unit :=
  fun s =>
    let s1 := log (EvClose tmp) s in
    match close_fault w with
    | Some m => (Raise (OSError m), s1)
    | None => (Ok tt, commit tmp s1)
    end.

(** [with ctx as x: body] for a file object: [__exit__] closes the file and
    lets an exception of the body through. *)
Definition with_tmp {A} (ctx : M string) (body : string -> M A) : M A :=
  tmp <- ctx ;; try_finally (body tmp) (tmp_close tmp).

(** [pytesseract.image_to_string(filepath, lang=lang)] *)
Definition image_to_string (path lang : string) : M string :=
  fun s =>
    let seen := disk s !! path in
    (engine w path lang seen, log (EvOcr path lang seen) s).

(** [os.path.exists(path)] *)
Definition os_path_exists (path : string) : M bool :=
  fun s =>
    let answer := match disk s !! path with Some _ => true | None => false end in
    (Ok answer, log (EvExists path answer) s).

(** [os.remove(path)] *)
Definition os_remove (path : string) : M unit :=
  fun s =>
    let s1 := log (EvRemove path) s in
    match remove_fault w with
    | Some m => (Raise (OSError m), s1)
    | None =>
        match disk s !! path with
        | None => (Raise (OSError "No such file or directory"), s1)
        | Some _ =>
            (Ok tt,
             mkState (delete path (disk s)) (buffer s) (stream s)
                     (filepath s) (trace s1) (stdout s))
        end
    end.

(** [asyncio.to_thread(f, x)], awaited: the caller resumes with what [f x]
    returns or raises.  Which thread runs [f] is not part of this model. *)
Definition to_thread {A B} (f : A -> M B) (x : A) : M B := f x.

(** ** main.py *)

Definition perform_ocr_sync (filepath : string) : M string :=
  try_except (image_to_string filepath "eng")
    (fun e =>
       match e with
       | TesseractNotFoundError _ =>
           print "Tesseract not found. Please ensure it is installed and in your PATH." ;;
           raise (RuntimeError "Tesseract OCR engine is not configured correctly.")
       | _ =>
           print ("An error occurred during OCR: " +:+ str e) ;;
           raise (RuntimeError ("OCR processing failed: " +:+ str e))
       end).

(** [while content := await image.read(1024 * 1024): tmp.write(content)].
    Every round that writes has read at least one byte, so the loop ends
    within as many rounds as the stream has bytes; [fuel] only has to be
    that large, and the handler passes the length of the upload.  With such
    fuel the loop stops only on the empty chunk or on an exception, never in
    the [O] branch ([write_chunks_spec]). *)
Fixpoint write_chunks (fuel : nat) (tmp : string) : M unit :=
  content <- UploadFile_read (1024 * 1024) ;;
  match content with
  | [] => ret tt
  | _ :: _ =>
      tmp_write tmp content ;;
      match fuel with
      | O => ret tt
      | S fuel' => write_chunks fuel' tmp
      end
  end.

Definition set_filepath (p : string) : M unit :=
  fun s =>
    (Ok tt, mkState (disk s) (buffer s) (stream s) (Some p) (trace s) (stdout s)).

(** The [finally] suite of the handler. *)
Definition cleanup : M unit :=
  fun s =>
    match filepath s with
    | None => (Ok tt, s)
    | Some p =>
        (present <- os_path_exists p ;;
         if present then os_remove p else ret tt) s
    end.

(** The three [except] clauses of the handler, in order. *)
Definition on_error {A} (e : exn) : M A :=
  match e with
  | HTTPException _ _ => raise e
  | RuntimeError _ => raise (HTTPException 500 (str e))
  | _ =>
      print ("File handling error: " +:+ str e) ;;
      raise (HTTPException 500 "An unexpected error occurred during file processing.")
  end.

Definition ocr_endpoint (image : UploadFile) : M dict :=
  if negb (truthy (content_type image))
     || negb (startswith (content_type image) "image/") then
    raise (HTTPException 400 "Invalid file type. Please upload an image.")
  else
    raw_text <-
      try_finally
        (try_except
           (with_tmp NamedTemporaryFile
              (fun tmp =>
                 write_chunks (length (file image)) tmp ;;
                 tmp_flush tmp ;;
                 set_filepath tmp ;;
                 to_thread perform_ocr_sync tmp))
           on_error)
        cleanup ;;
    ret [("raw_text_from_img", raw_text)].

End Collaborators.

(** A request starts with the upload unread, no local bound and nothing
    logged; [d] is whatever the file system holds at that time. *)
Definition fresh (image : UploadFile) (d : gmap string bytes) : state :=
  mkState d [] (file image) None [] [].

Definition handle (w : world) (image : UploadFile) (d : gmap string bytes)
  : outcome dict * state :=
  ocr_endpoint w image (fresh image d).

(** ** Vocabulary of the properties *)

(** Where a request stands, read off the calls it has made so far. *)
Inductive phase : Type :=
| Received       (* nothing done yet *)
| Persisting     (* the file is open, the next chunk is to be read *)
| Chunk          (* a non-empty chunk was read and is to be written *)
| ReadBroken     (* reading the upload raised *)
| Drained        (* the upload returned its empty, last chunk *)
| Flushed        (* [tmp.flush()] was called *)
| Recognized     (* the engine was called *)
| Closed         (* the file object was closed after the engine call *)
| Present        (* [os.path.exists] answered True *)
| Finished.      (* nothing more may touch the file *)

(** The calls the order of the handler allows in each phase, for the
    transient file [p]. *)
Definition step (p : string) (ph : phase) (ev : event) : option phase :=
  match ph, ev with
  | Received, EvCreate q => if String.eqb q p then Some Persisting else None
  | Persisting, EvRead _ [] => Some Drained
  | Persisting, EvRead _ (_ :: _) => Some Chunk
  | Persisting, EvReadFailed _ => Some ReadBroken
  | Persisting, EvClose q => if String.eqb q p then Some Finished else None
  | Chunk, EvWrite q _ => if String.eqb q p then Some Persisting else None
  | ReadBroken, EvClose q => if String.eqb q p then Some Finished else None
  | Drained, EvFlush q => if String.eqb q p then Some Flushed else None
  | Flushed, EvOcr q lang _ =>
      if String.eqb q p && String.eqb lang "eng" then Some Recognized else None
  | Flushed, EvClose q => if String.eqb q p then Some Finished else None
  | Recognized, EvClose q => if String.eqb q p then Some Closed else None
  | Closed, EvExists q present =>
      if String.eqb q p then Some (if present then Present else Finished) else None
  | Present, EvRemove q => if String.eqb q p then Some Finished else None
  | _, _ => None
  end.

Fixpoint run (p : string) (ph : phase) (evs : list event) : option phase :=
  match evs with
  | [] => Some ph
  | ev :: evs' =>
      match step p ph ev with
      | Some ph' => run p ph' evs'
      | None => None
      end
  end.

(** The calls of the streaming loop. *)
Definition is_transfer (ev : event) : bool :=
  match ev with
  | EvRead _ _ | EvReadFailed _ | EvWrite _ _ => true
  | _ => false
  end.


(** Python's [sub in s] on strings, and [c in s] for one character. *)
Fixpoint contains (sub s : string) : bool :=
  String.prefix sub s ||
  match s with
  | EmptyString => false
  | String _ s' => contains sub s'
  end.

Fixpoint has_char (c : ascii) (s : string) : bool :=
  match s with
  | EmptyString => false
  | String c' s' => Ascii.eqb c c' || has_char c s'
  end.

(** A file name with a directory part, on either platform. *)
Definition has_separator (p : string) : bool :=
  has_char "/" p || has_char "\" p.

(** The detail texts of the handler's 500 responses. *)
Definition GENERIC_DETAIL : string :=
  "An unexpected error occurred during file processing.".

Definition CONFIG_DETAIL : string :=
  "Tesseract OCR engine is not configured correctly.".

Definition ocr_failed_detail (e : exn) : string :=
  "OCR processing failed: " +:+ str e.

(** What a request that got as far as the engine answers, when closing and
    deleting the file raise nothing: the engine's text under the fixed key,
    or a 500 that classifies the engine's exception. *)
Definition after_engine (r : outcome string) : outcome dict :=
  match r with
  | Ok t => Ok [("raw_text_from_img", t)]
  | Raise (TesseractNotFoundError _) => Raise (HTTPException 500 CONFIG_DETAIL)
  | Raise e => Raise (HTTPException 500 (ocr_failed_detail e))
  end.


(** The upload passes the check of line 44. *)
Definition accepted (image : UploadFile) : bool :=
  truthy (content_type image) && startswith (content_type image) "image/".

(** The storage calls up to and including the flush raise nothing, and the
    temporary name is free. *)
Definition persists (w : world) (d : gmap string bytes) : Prop :=
  create_fault w = None /\
  d !! tmp_name w = None /\
  (forall rest, read_fault w rest = None) /\
  (forall buf content, write_fault w buf content = None) /\
  flush_fault w = None.

(** ** Sample requests *)

(** A world in which no storage call fails; [eng] is the engine. *)
Definition calm (eng : string -> string -> option bytes -> outcome string)
  : world :=
  mkWorld "/tmp/tmpk3x9a2" None (fun _ => None) (fun _ _ => None) None None
          eng None.

(** The same world, except that [os.remove] raises. *)
Definition locked (eng : string -> string -> option bytes -> outcome string)
  : world :=
  mkWorld "/tmp/tmpk3x9a2" None (fun _ => None) (fun _ _ => None) None None
          eng (Some "Permission denied").

(** The same world, except that the disk is full on the first write. *)
Definition disk_full : world :=
  mkWorld "/tmp/tmpk3x9a2" None (fun _ => None)
          (fun _ _ => Some "No space left on device") None None
          (fun _ _ _ => Ok "HELLO WORLD") None.

Definition reads_nothing : string -> string -> option bytes -> outcome string :=
  fun _ _ _ => Ok "".

Definition not_installed : string -> string -> option bytes -> outcome string :=
  fun _ _ _ =>
    Raise (TesseractNotFoundError
             "tesseract.exe is not installed or it's not in your PATH.").

(** An engine that names the file it could not read, as Tesseract does. *)
Definition unreadable : string -> string -> option bytes -> outcome string :=
  fun path _ _ =>
    Raise (RuntimeError ("Image file " +:+ path +:+ " cannot be read!")).

(** An engine whose binary is found but may not be run: the library lets the
    operating system's error through. *)
Definition not_executable : string -> string -> option bytes -> outcome string :=
  fun _ _ _ => Raise (OSError "[Errno 13] Permission denied: 'tesseract.exe'").

Definition png : UploadFile :=
  mkUpload (Some "image/png") [Byte.x89; Byte.x50; Byte.x4e; Byte.x47].

Definition empty_png : UploadFile := mkUpload (Some "image/png") [].

Definition plain_text : UploadFile :=
  mkUpload (Some "text/plain") [Byte.x68; Byte.x69].

(** A world in which the temporary directory cannot be written to. *)
Definition no_tmp_dir : world :=
  mkWorld "/tmp/tmpk3x9a2" (Some "Read-only file system") (fun _ => None)
          (fun _ _ => None) None None (fun _ _ _ => Ok "HELLO WORLD") None.

(** A world in which closing the file raises. *)
Definition close_breaks
    (eng : string -> string -> option bytes -> outcome string) : world :=
  mkWorld "/tmp/tmpk3x9a2" None (fun _ => None) (fun _ _ => None) None
          (Some "Input/output error") eng None.

(** ** Vocabulary of the further properties *)



Definition is_ocr (ev : event) : bool :=
  match ev with
  | EvOcr _ _ _ => true
  | _ => false
  end.

Definition is_create (ev : event) : bool :=
  match ev with
  | EvCreate _ => true
  | _ => false
  end.

Definition is_remove (ev : event) : bool :=
  match ev with
  | EvRemove _ => true
  | _ => false
  end.

(** ** List slicing *)

Lemma takeN_dropN {A} (n : N) (l : list A) : takeN n l ++ dropN n l = l.
Proof.
  revert n. induction l as [|x l IH]; intros n; simpl; [reflexivity|].
  destruct (n =? 0)%N; simpl; [reflexivity|]. now rewrite IH.
Qed.

Lemma takeN_nil {A} (n : N) (l : list A) :
  (n <> 0)%N -> takeN n l = [] -> l = [].
Proof.
  intros Hn. destruct l as [|x l]; simpl; [reflexivity|].
  destruct (n =? 0)%N eqn:E; [|discriminate].
  apply N.eqb_eq in E. contradiction.
Qed.

Lemma dropN_length {A} (n : N) (l : list A) : length (dropN n l) <= length l.
Proof.
  revert n. induction l as [|x l IH]; intros n; simpl; [lia|].
  destruct (n =? 0)%N; simpl; [lia|]. specialize (IH (N.pred n)). lia.
Qed.

Lemma dropN_shorter {A} (n : N) (x : A) (l : list A) :
  (n <> 0)%N -> length (dropN n (x :: l)) <= length l.
Proof.
  intros Hn. simpl. destruct (n =? 0)%N eqn:E.
  - apply N.eqb_eq in E. contradiction.
  - apply dropN_length.
Qed.

(** ** The order automaton *)


Lemma eqb_self (p : string) : String.eqb p p = true.
Proof. apply String.eqb_refl. Qed.

(** ** The streaming loop *)

Section Loop.

Variable w : world.
Variable tmp : string.

(** What the loop leaves behind, in every world: the disk, the local and
    the output are untouched; the calls made are reads and writes that keep
    to the order; when the loop ends normally the whole unread stream sits
    in the buffer, and when it does not, the [OSError] of a read or write
    fault is in flight. *)
Lemma write_chunks_spec (fuel : nat) :
  forall s, length (stream s) <= fuel ->
  exists r evs buf rest,
    write_chunks w fuel tmp s =
      (r, mkState (disk s) buf rest (filepath s) (trace s ++ evs) (stdout s)) /\
    forallb is_transfer evs = true /\
    match r with
    | Ok _ =>
        buf = buffer s ++ stream s /\ rest = [] /\
        run tmp Persisting evs = Some Drained
    | Raise e =>
        (exists m, e = OSError m /\
                   ((exists unread, read_fault w unread = Some m) \/
                    (exists held content, write_fault w held content = Some m))) /\
        (run tmp Persisting evs = Some Persisting \/
         run tmp Persisting evs = Some ReadBroken)
    end.
Proof.
  assert (Hsize : (1024 * 1024 <> 0)%N) by discriminate.
  induction fuel as [|fuel IH]; intros s Hlen.
  - destruct s as [dk bf st fp tr out]; simpl in *.
    destruct st; [|simpl in Hlen; lia].
    unfold bind, UploadFile_read; simpl.
    destruct (read_fault w []) as [m|] eqn:Erd.
    + exists (Raise (OSError m)), [EvReadFailed (1024 * 1024)], bf, [].
      simpl. repeat split; eauto 7.
    + exists (Ok tt), [EvRead (1024 * 1024) []], bf, []. simpl.
      rewrite app_nil_r. repeat split; auto.
  - destruct s as [dk bf st fp tr out]; simpl in *.
    unfold bind at 1. unfold UploadFile_read at 1; simpl.
    destruct (read_fault w st) as [m|] eqn:Erd.
    + exists (Raise (OSError m)), [EvReadFailed (1024 * 1024)], bf, st.
      simpl. repeat split; eauto 7.
    + destruct (takeN (1024 * 1024) st) as [|b got] eqn:Etake.
      * apply takeN_nil in Etake; [subst st|assumption].
        exists (Ok tt), [EvRead (1024 * 1024) []], bf, []. simpl.
        rewrite app_nil_r. repeat split; auto.
      * unfold bind at 1. unfold tmp_write at 1; simpl.
        destruct (write_fault w bf (b :: got)) as [m|] eqn:Ewr.
        -- exists (Raise (OSError m)),
             [EvRead (1024 * 1024) (b :: got); EvWrite tmp (b :: got)],
             bf, (dropN (1024 * 1024) st).
           unfold log; simpl. rewrite eqb_self, <- app_assoc. simpl.
           repeat split; eauto 7.
        -- destruct st as [|b0 st]; [discriminate|].
           destruct (IH (mkState dk (bf ++ b :: got)
                                 (dropN (1024 * 1024) (b0 :: st)) fp
                                 ((tr ++ [EvRead (1024 * 1024) (b :: got)]) ++
                                  [EvWrite tmp (b :: got)]) out))
             as (r & evs & buf & rest & Hrun & Htr & Hr).
           all: unfold log; simpl trace; simpl disk; simpl buffer;
             simpl filepath; simpl stdout.
           { cbn [stream length] in *.
             pose proof (dropN_shorter (1024 * 1024) b0 st Hsize). lia. }
           exists r,
             (EvRead (1024 * 1024) (b :: got) :: EvWrite tmp (b :: got) :: evs),
             buf, rest.
           split; [|split].
           ++ rewrite Hrun. simpl. now rewrite <- !app_assoc.
           ++ exact Htr.
           ++ simpl run. rewrite eqb_self.
              destruct r as [[]|e]; [|exact Hr].
              destruct Hr as (Hbuf & Hrest & Hord). cbn [buffer stream] in Hbuf.
              repeat split; [|assumption|assumption].
              rewrite Hbuf, <- Etake, <- app_assoc.
              now rewrite takeN_dropN.
Qed.

End Loop.

(** ** The handler, path by path *)

Ltac reduce :=
  unfold with_tmp, cleanup, perform_ocr_sync, on_error, to_thread in *;
  unfold bind, ret, raise, try_except, try_finally,
    NamedTemporaryFile, tmp_flush, tmp_close, set_filepath,
    image_to_string, os_path_exists, os_remove,
    print, log, commit, fresh in *;
  cbn [disk buffer stream filepath trace stdout fst snd negb orb andb] in *.

Ltac proj :=
  cbn [disk buffer stream filepath trace stdout fst snd] in *.

Ltac flat :=
  repeat first [ rewrite <- app_assoc | progress cbn [app] ].

Ltac on_disk :=
  rewrite ?lookup_alter_eq, ?lookup_insert_eq in *;
  cbn [fmap option_fmap option_map app] in *.

Ltac settle := repeat (progress (proj; on_disk; flat)).

Section Handler.

Variable w : world.
Variable image : UploadFile.
Variable d : gmap string bytes.

Let p : string := tmp_name w.

Lemma check_accepted :
  negb (truthy (content_type image))
  || negb (startswith (content_type image) "image/") = negb (accepted image).
Proof. unfold accepted. now rewrite negb_andb. Qed.

(** A rejected upload leaves the handler at once, with nothing done. *)
Lemma handle_rejected :
  accepted image = false ->
  handle w image d =
    (Raise (HTTPException 400 "Invalid file type. Please upload an image."),
     fresh image d).
Proof.
  intros Hrej. unfold handle, ocr_endpoint.
  now rewrite check_accepted, Hrej.
Qed.

(** The loop as the handler calls it, right after the file was created. *)
Lemma handler_loop :
  exists r evs buf rest,
    write_chunks w (length (file image)) p
      (mkState (<[p:=[]]> d) [] (file image) None [EvCreate p] []) =
      (r, mkState (<[p:=[]]> d) buf rest None (EvCreate p :: evs) []) /\
    forallb is_transfer evs = true /\
    match r with
    | Ok _ =>
        buf = file image /\ rest = [] /\ run p Persisting evs = Some Drained
    | Raise e =>
        (exists m, e = OSError m /\
                   ((exists unread, read_fault w unread = Some m) \/
                    (exists held content, write_fault w held content = Some m))) /\
        (run p Persisting evs = Some Persisting \/
         run p Persisting evs = Some ReadBroken)
    end.
Proof.
  destruct (write_chunks_spec w p (length (file image))
              (mkState (<[p:=[]]> d) [] (file image) None [EvCreate p] []))
    as (r & evs & buf & rest & Hrun & Htr & Hr); [reflexivity|].
  exists r, evs, buf, rest. auto.
Qed.

(** The request whose upload is stored without a fault, given the calls
    [evs] its loop made: the engine is asked about a file that holds the
    whole upload, the file is closed, found and deleted.  The engine's answer
    becomes the response unless closing or deleting the file raises. *)
Lemma handle_after_loop (evs : list event) :
  accepted image = true -> persists w d ->
  write_chunks w (length (file image)) p
    (mkState (<[p:=[]]> d) [] (file image) None [EvCreate p] []) =
    (Ok tt, mkState (<[p:=[]]> d) (file image) [] None (EvCreate p :: evs) []) ->
  fst (handle w image d) =
    match remove_fault w, close_fault w with
    | Some m, _ => Raise (OSError m)
    | None, Some _ => Raise (HTTPException 500 GENERIC_DETAIL)
    | None, None => after_engine (engine w p "eng" (Some (file image)))
    end /\
  trace (snd (handle w image d)) =
    EvCreate p :: evs ++
      [EvFlush p; EvOcr p "eng" (Some (file image)); EvClose p;
       EvExists p true; EvRemove p] /\
  disk (snd (handle w image d)) !! p =
    match remove_fault w with
    | Some _ => Some (file image)
    | None => None
    end.
Proof.
  intros Hacc (Hc & Hfree & Hrd & Hwr & Hfl) Hrun.
  unfold handle, ocr_endpoint. rewrite check_accepted, Hacc.
  unfold p in *. reduce. rewrite Hc, Hfree. cbn [app].
  rewrite Hrun, Hfl. settle.
  destruct (engine w (tmp_name w) "eng" (Some (file image))) as [t|e];
    [|destruct e]; cbn [after_engine]; settle;
    destruct (close_fault w); settle;
    destruct (remove_fault w); settle;
    rewrite ?lookup_delete_eq, ?app_nil_r; auto.
Qed.

Lemma handle_nominal :
  accepted image = true -> persists w d ->
  exists evs,
    run p Persisting evs = Some Drained /\
    forallb is_transfer evs = true /\
    fst (handle w image d) =
      match remove_fault w, close_fault w with
      | Some m, _ => Raise (OSError m)
      | None, Some _ => Raise (HTTPException 500 GENERIC_DETAIL)
      | None, None => after_engine (engine w p "eng" (Some (file image)))
      end /\
    trace (snd (handle w image d)) =
      EvCreate p :: evs ++
        [EvFlush p; EvOcr p "eng" (Some (file image)); EvClose p;
         EvExists p true; EvRemove p] /\
    disk (snd (handle w image d)) !! p =
      match remove_fault w with
      | Some _ => Some (file image)
      | None => None
      end.
Proof.
  intros Hacc Hp.
  destruct handler_loop as (lr & evs & buf & rest & Hrun & Htr & Hr).
  destruct lr as [[]|e].
  2:{ destruct Hp as (_ & _ & Hrd & Hwr & _).
      destruct Hr as [(m & _ & [[u Hu]|[h [c Hc']]]) _].
      - now rewrite Hrd in Hu.
      - now rewrite Hwr in Hc'. }
  destruct Hr as (-> & -> & Hord).
  exists evs. split; [assumption|]. split; [assumption|].
  now apply handle_after_loop.
Qed.

(** Every way an accepted request can go.  [evs] are the reads and writes
    of the streaming loop. *)
Lemma handle_paths :
  accepted image = true ->
  let r := engine w p "eng" (Some (file image)) in
  let out := fst (handle w image d) in
  let s := snd (handle w image d) in
  exists evs,
    forallb is_transfer evs = true /\
    ((* the file could not be created *)
     (out = Raise (HTTPException 500 GENERIC_DETAIL) /\
      trace s = [EvCreate p] /\ disk s = d)
     \/
     (* reading or writing a chunk raised *)
     (out = Raise (HTTPException 500 GENERIC_DETAIL) /\
      trace s = EvCreate p :: evs ++ [EvClose p] /\
      (run p Persisting evs = Some Persisting \/
       run p Persisting evs = Some ReadBroken) /\
      is_Some (disk s !! p))
     \/
     (* the flush raised *)
     (out = Raise (HTTPException 500 GENERIC_DETAIL) /\
      trace s = EvCreate p :: evs ++ [EvFlush p; EvClose p] /\
      run p Persisting evs = Some Drained /\
      is_Some (disk s !! p))
     \/
     (* the engine was called *)
     (out = match remove_fault w, close_fault w with
            | Some m, _ => Raise (OSError m)
            | None, Some _ => Raise (HTTPException 500 GENERIC_DETAIL)
            | None, None => after_engine r
            end /\
      trace s = EvCreate p :: evs ++
                  [EvFlush p; EvOcr p "eng" (Some (file image)); EvClose p;
                   EvExists p true; EvRemove p] /\
      run p Persisting evs = Some Drained /\
      disk s !! p = match remove_fault w with
                    | Some _ => Some (file image)
                    | None => None
                    end)).
Proof.
  intros Hacc r out s. subst r out s.
  destruct handler_loop as (lr & evs & buf & rest & Hrun & Htr & Hr).
  unfold handle, ocr_endpoint. rewrite check_accepted, Hacc.
  unfold p in *. reduce. cbn [app].
  destruct (create_fault w).
  { exists []. split; [reflexivity|]. left. settle. auto. }
  destruct (d !! tmp_name w) eqn:Hfree.
  { exists []. split; [reflexivity|]. left. settle. auto. }
  rewrite Hrun. exists evs. split; [assumption|]. right.
  destruct lr as [[]|e].
  - destruct Hr as (-> & -> & Hord). right. settle.
    destruct (flush_fault w); settle.
    + left. destruct (close_fault w); settle;
        (repeat split; [assumption|]); eauto.
    + right.
      destruct (engine w (tmp_name w) "eng" (Some (file image))) as [t|e];
        [|destruct e]; cbn [after_engine]; settle;
        destruct (close_fault w); settle;
        destruct (remove_fault w); settle;
        rewrite ?lookup_delete_eq, ?app_nil_r; auto.
  - destruct Hr as [(m & -> & _) Hord]. left. settle.
    destruct (close_fault w); settle;
      (repeat split; [assumption|]); eauto.
Qed.

End Handler.

(** An accepted request that ends in an HTTP error ends in a 500. *)
Lemma error_status (w : world) (image : UploadFile) (d : gmap string bytes)
    (c : Z) (detail : string) :
  accepted image = true ->
  fst (handle w image d) = Raise (HTTPException c detail) ->
  c = 500%Z.
Proof.
  intros Hacc Hout.
  destruct (handle_paths w image d Hacc)
    as (evs & _ & [(Ho & _)|[(Ho & _)|[(Ho & _)|(Ho & _)]]]);
    rewrite Hout in Ho; try (now injection Ho).
  destruct (remove_fault w); [discriminate|].
  destruct (close_fault w); [now injection Ho|].
  destruct (engine w (tmp_name w) "eng" (Some (file image))) as [t|[]];
    cbn [after_engine] in Ho; try discriminate; now injection Ho.
Qed.

(** ** The claims *)

Lemma accepted_startswith (image : UploadFile) :
  startswith (content_type image) "image/" = true -> accepted image = true.
Proof.
  unfold accepted, startswith, truthy.
  destruct (content_type image) as [[|c t]|]; simpl; try discriminate.
  now intros ->.
Qed.

Lemma accepted_false (image : UploadFile) :
  content_type image = None \/
  (exists t, content_type image = Some t /\ String.prefix "image/" t = false) ->
  accepted image = false.
Proof.
  unfold accepted, startswith.
  intros [->|(t & -> & Ht)]; [reflexivity|]. rewrite Ht. apply andb_false_r.
Qed.

(** C1, at a request the code mishandles: the upload is accepted and the
    transient file is created, the first [tmp.write] raises, the client gets
    the 500 of a storage failure, and the file is still on the disk when the
    handler is done.  [filepath] was never bound, so the [finally] suite did
    not look for the file. *)
Theorem C1_write_failure_leaves_file :
  accepted png = true /\
  fst (handle disk_full png ∅) = Raise (HTTPException 500 GENERIC_DETAIL) /\
  filepath (snd (handle disk_full png ∅)) = None /\
  trace (snd (handle disk_full png ∅)) =
    [EvCreate "/tmp/tmpk3x9a2";
     EvRead (1024 * 1024) [Byte.x89; Byte.x50; Byte.x4e; Byte.x47];
     EvWrite "/tmp/tmpk3x9a2" [Byte.x89; Byte.x50; Byte.x4e; Byte.x47];
     EvClose "/tmp/tmpk3x9a2"] /\
  disk (snd (handle disk_full png ∅)) !! "/tmp/tmpk3x9a2" = Some [].
Proof. vm_compute. repeat split. Qed.

(** C2 as stated fails: the upload is an image, it is stored without a
    fault and the engine returns a text, and still the answer is no 200 when
    the file cannot be closed or deleted afterwards.  A raising [os.remove]
    leaves the handler as it is (the framework's plain 500); a raising close
    is answered with the 500 of a storage failure. *)
Lemma C2_text_lost_after_ocr :
  startswith (content_type png) "image/" = true /\
  persists (locked reads_nothing) ∅ /\
  persists (close_breaks reads_nothing) ∅ /\
  engine (locked reads_nothing) (tmp_name (locked reads_nothing)) "eng"
    (Some (file png)) = Ok "" /\
  engine (close_breaks reads_nothing) (tmp_name (close_breaks reads_nothing))
    "eng" (Some (file png)) = Ok "" /\
  fst (handle (locked reads_nothing) png ∅) = Raise (OSError "Permission denied") /\
  respond (fst (handle (locked reads_nothing) png ∅)) =
    mkResponse 500 (PlainText "Internal Server Error") /\
  respond (fst (handle (close_breaks reads_nothing) png ∅)) =
    mkResponse 500 (JSON [("detail", GENERIC_DETAIL)]).
Proof.
  split; [reflexivity|]. split; [repeat split; intros; reflexivity|].
  split; [repeat split; intros; reflexivity|].
  vm_compute. repeat split.
Qed.

(** C2, amended: an upload declared as an image, stored without a storage
    fault, on which the engine returns the text [t] for the file's path and
    "eng", and whose file is then closed and deleted without a fault, is
    answered with 200 and the body {"raw_text_from_img": t}, for every [t],
    the empty one included. *)
Theorem C2_text_is_returned (w : world) (image : UploadFile)
    (d : gmap string bytes) (t : string) :
  startswith (content_type image) "image/" = true ->
  persists w d ->
  close_fault w = None ->
  remove_fault w = None ->
  engine w (tmp_name w) "eng" (Some (file image)) = Ok t ->
  fst (handle w image d) = Ok [("raw_text_from_img", t)] /\
  respond (fst (handle w image d)) =
    mkResponse 200 (JSON [("raw_text_from_img", t)]).
Proof.
  intros Hct Hp Hcl Hrm Heng.
  destruct (handle_nominal w image d (accepted_startswith _ Hct) Hp)
    as (evs & _ & _ & Hout & _).
  rewrite Hout, Hrm, Hcl, Heng. cbn. auto.
Qed.

Lemma C2_empty_text_witness :
  fst (handle (calm reads_nothing) png ∅) = Ok [("raw_text_from_img", "")] /\
  respond (fst (handle (calm reads_nothing) png ∅)) =
    mkResponse 200 (JSON [("raw_text_from_img", "")]).
Proof.
  apply (C2_text_is_returned (calm reads_nothing) png ∅ "").
  - reflexivity.
  - repeat split; intros; reflexivity.
  - reflexivity.
  - reflexivity.
  - reflexivity.
Defined.

(** C3: an upload whose declared content type is absent, or does not start
    with "image/", is refused with status 400 and a detail that names the
    invalid file type; the handler has then made no call at all, so the disk
    is as it was and no file was created or written. *)
Theorem C3_wrong_type_is_refused (w : world) (image : UploadFile)
    (d : gmap string bytes) :
  content_type image = None \/
  (exists t, content_type image = Some t /\ String.prefix "image/" t = false) ->
  respond (fst (handle w image d)) =
    mkResponse 400
      (JSON [("detail", "Invalid file type. Please upload an image.")]) /\
  contains "Invalid file type" "Invalid file type. Please upload an image." = true /\
  trace (snd (handle w image d)) = [] /\
  disk (snd (handle w image d)) = d.
Proof.
  intros Hct. rewrite (handle_rejected w image d (accepted_false _ Hct)).
  repeat split.
Qed.

Lemma C3_text_plain_witness :
  respond (fst (handle (calm reads_nothing) plain_text ∅)) =
    mkResponse 400
      (JSON [("detail", "Invalid file type. Please upload an image.")]) /\
  contains "Invalid file type" "Invalid file type. Please upload an image." = true /\
  trace (snd (handle (calm reads_nothing) plain_text ∅)) = [] /\
  disk (snd (handle (calm reads_nothing) plain_text ∅)) = ∅.
Proof.
  apply (C3_wrong_type_is_refused (calm reads_nothing) plain_text ∅).
  right. exists "text/plain". split; reflexivity.
Defined.

(** *** Paths in a detail text *)

Lemma prefix_has_char (c : ascii) (s sub : string) :
  String.prefix sub s = true -> has_char c sub = true -> has_char c s = true.
Proof.
  revert sub. induction s as [|b s IH]; intros [|a sub]; simpl; try discriminate.
  destruct (ascii_dec a b) as [->|]; [|discriminate].
  intros Hpre. destruct (Ascii.eqb c b); simpl; [reflexivity|]. now apply IH.
Qed.

Lemma contains_has_char (c : ascii) (s sub : string) :
  contains sub s = true -> has_char c sub = true -> has_char c s = true.
Proof.
  induction s as [|b s IH]; intros Hin Hc.
  - simpl in Hin. rewrite orb_false_r in Hin. now apply prefix_has_char with sub.
  - cbn [contains] in Hin. apply orb_prop in Hin as [Hpre|Hin].
    + now apply prefix_has_char with sub.
    + cbn [has_char]. rewrite (IH Hin Hc). apply orb_true_r.
Qed.

(** A text without "/" and without "\" contains no file name that has a
    directory part. *)
Lemma no_separator_no_path (s q : string) :
  has_separator s = false -> has_separator q = true -> contains q s = false.
Proof.
  unfold has_separator. intros Hs Hq.
  apply orb_false_elim in Hs as [Hslash Hback].
  destruct (contains q s) eqn:Hin; [|reflexivity].
  apply orb_prop in Hq as [Hq|Hq].
  - now rewrite (contains_has_char _ _ _ Hin Hq) in Hslash.
  - now rewrite (contains_has_char _ _ _ Hin Hq) in Hback.
Qed.

(** C4 as stated fails: the engine's own message goes into the detail, and
    Tesseract's message for an unreadable image names the file. *)
Lemma C4_detail_names_the_file :
  accepted png = true /\
  fst (handle (calm unreadable) png ∅) =
    Raise (HTTPException 500
             "OCR processing failed: Image file /tmp/tmpk3x9a2 cannot be read!") /\
  contains (tmp_name (calm unreadable))
    "OCR processing failed: Image file /tmp/tmpk3x9a2 cannot be read!" = true.
Proof. vm_compute. repeat split. Qed.

(** C4, amended: whenever an accepted request ends in an HTTP error, the
    status is 500 and the detail is one of three texts.  Two are fixed, for a
    storage failure and for a missing engine, and contain no file name with a
    directory part.  The third is "OCR processing failed: " followed by the
    text of the engine's exception, whatever that text says. *)
Theorem C4_detail_of_a_failure (w : world) (image : UploadFile)
    (d : gmap string bytes) (c : Z) (detail : string) :
  accepted image = true ->
  fst (handle w image d) = Raise (HTTPException c detail) ->
  c = 500%Z /\
  (((detail = GENERIC_DETAIL \/ detail = CONFIG_DETAIL) /\
    (forall q, has_separator q = true -> contains q detail = false))
   \/
   (exists e, engine w (tmp_name w) "eng" (Some (file image)) = Raise e /\
              detail = ocr_failed_detail e)).
Proof.
  intros Hacc Hout.
  assert (Hfixed : forall c' detail',
            Raise (HTTPException 500 GENERIC_DETAIL) =
              @Raise dict (HTTPException c' detail') ->
            c' = 500%Z /\
            (detail' = GENERIC_DETAIL \/ detail' = CONFIG_DETAIL) /\
            (forall q, has_separator q = true -> contains q detail' = false)).
  { intros c' detail' [= <- <-]. repeat split; [now left|].
    intros q. now apply no_separator_no_path. }
  destruct (handle_paths w image d Hacc)
    as (evs & _ & [(Ho & _)|[(Ho & _)|[(Ho & _)|(Ho & _)]]]);
    rewrite Hout in Ho; symmetry in Ho.
  1-3: destruct (Hfixed _ _ Ho) as (-> & Hd & Hq); auto.
  destruct (remove_fault w); [discriminate|].
  destruct (close_fault w).
  { destruct (Hfixed _ _ Ho) as (-> & Hd & Hq); auto. }
  destruct (engine w (tmp_name w) "eng" (Some (file image))) as [t|e] eqn:He;
    [discriminate|].
  destruct e; cbn [after_engine] in Ho; injection Ho as <- <-;
    (split; [reflexivity|]); try (right; eexists; split; reflexivity).
  left. split; [now right|]. intros q. now apply no_separator_no_path.
Qed.

Lemma C4_missing_engine_witness :
  500%Z = 500%Z /\
  (((CONFIG_DETAIL = GENERIC_DETAIL \/ CONFIG_DETAIL = CONFIG_DETAIL) /\
    (forall q, has_separator q = true -> contains q CONFIG_DETAIL = false))
   \/
   (exists e, engine (calm not_installed) (tmp_name (calm not_installed)) "eng"
                (Some (file png)) = Raise e /\
              CONFIG_DETAIL = ocr_failed_detail e)).
Proof.
  apply (C4_detail_of_a_failure (calm not_installed) png ∅ 500 CONFIG_DETAIL).
  - reflexivity.
  - vm_compute. reflexivity.
Defined.


(** C6 as stated fails in three ways.  With the binary missing, a raising
    [os.remove] leaves the handler as it is (the framework's plain 500) and a
    raising close is answered with the detail of a storage failure; and when
    the binary is there but cannot be run, the library raises no
    TesseractNotFoundError and the operating system's own text goes into the
    detail. *)
Lemma C6_missing_engine_other_answers :
  accepted png = true /\
  respond (fst (handle (locked not_installed) png ∅)) =
    mkResponse 500 (PlainText "Internal Server Error") /\
  respond (fst (handle (close_breaks not_installed) png ∅)) =
    mkResponse 500 (JSON [("detail", GENERIC_DETAIL)]) /\
  respond (fst (handle (calm not_executable) png ∅)) =
    mkResponse 500
      (JSON [("detail",
              "OCR processing failed: [Errno 13] Permission denied: 'tesseract.exe'")]).
Proof. vm_compute. repeat split. Qed.

(** C6, amended: when the upload is stored, closed and deleted without a
    storage fault and the engine library raises TesseractNotFoundError,
    whatever the message [m] of that exception, the response is 500 with the
    fixed detail "Tesseract OCR engine is not configured correctly.". *)
Theorem C6_missing_engine_is_generic (w : world) (image : UploadFile)
    (d : gmap string bytes) (m : string) :
  accepted image = true ->
  persists w d ->
  close_fault w = None ->
  remove_fault w = None ->
  engine w (tmp_name w) "eng" (Some (file image)) =
    Raise (TesseractNotFoundError m) ->
  respond (fst (handle w image d)) =
    mkResponse 500
      (JSON [("detail", "Tesseract OCR engine is not configured correctly.")]).
Proof.
  intros Hacc Hp Hcl Hrm Heng.
  destruct (handle_nominal w image d Hacc Hp) as (evs & _ & _ & Hout & _).
  rewrite Hout, Hrm, Hcl, Heng. reflexivity.
Qed.

Lemma C6_not_installed_witness :
  respond (fst (handle (calm not_installed) png ∅)) =
    mkResponse 500
      (JSON [("detail", "Tesseract OCR engine is not configured correctly.")]).
Proof.
  apply (C6_missing_engine_is_generic (calm not_installed) png ∅
           "tesseract.exe is not installed or it's not in your PATH.").
  - reflexivity.
  - repeat split; intros; reflexivity.
  - reflexivity.
  - reflexivity.
  - reflexivity.
Defined.

(** C7: when the file under the bound path is gone, the [finally] suite asks
    whether it exists, is told no, and is done: it raises nothing, leaves the
    disk alone, and whatever the [try] part returned or raised is what leaves
    the statement.  In particular a second run of the suite, after a first one
    that succeeded, is such a run. *)
Theorem C7_cleanup_of_a_missing_file (w : world) (s : state) (path : string)
    (r : outcome dict) :
  filepath s = Some path ->
  (disk s !! path = None ->
   cleanup w s = (Ok tt, log (EvExists path false) s) /\
   try_finally (fun s0 => (r, s0)) (cleanup w) s =
     (r, log (EvExists path false) s)) /\
  (forall s1, cleanup w s = (Ok tt, s1) ->
   cleanup w s1 = (Ok tt, log (EvExists path false) s1)).
Proof.
  intros Hfp. split.
  - intros Hgone. unfold try_finally, cleanup, bind, os_path_exists, ret.
    now rewrite Hfp, Hgone.
  - intros s1. unfold cleanup, bind, os_path_exists, os_remove, ret.
    rewrite Hfp. destruct (disk s !! path) eqn:Hd; cbn [log disk filepath].
    + destruct (remove_fault w); [discriminate|]. rewrite Hd.
      intros [= <-]. cbn [filepath disk]. now rewrite Hfp, lookup_delete_eq.
    + intros [= <-]. cbn [log filepath disk]. now rewrite Hfp, Hd.
Qed.

Lemma C7_second_cleanup_witness :
  (disk (snd (handle (calm reads_nothing) png ∅)) !! "/tmp/tmpk3x9a2" = None ->
   cleanup (locked reads_nothing) (snd (handle (calm reads_nothing) png ∅)) =
     (Ok tt,
      log (EvExists "/tmp/tmpk3x9a2" false)
          (snd (handle (calm reads_nothing) png ∅))) /\
   try_finally (fun s0 => (Ok [("raw_text_from_img", "")], s0))
     (cleanup (locked reads_nothing))
     (snd (handle (calm reads_nothing) png ∅)) =
     (Ok [("raw_text_from_img", "")],
      log (EvExists "/tmp/tmpk3x9a2" false)
          (snd (handle (calm reads_nothing) png ∅)))) /\
  (forall s1,
     cleanup (locked reads_nothing) (snd (handle (calm reads_nothing) png ∅)) =
       (Ok tt, s1) ->
     cleanup (locked reads_nothing) s1 =
       (Ok tt, log (EvExists "/tmp/tmpk3x9a2" false) s1)).
Proof.
  apply (C7_cleanup_of_a_missing_file (locked reads_nothing)
           (snd (handle (calm reads_nothing) png ∅)) "/tmp/tmpk3x9a2"
           (Ok [("raw_text_from_img", "")])).
  vm_compute. reflexivity.
Defined.

(** C10: an upload declared as an image whose body has no bytes is not
    turned away: whatever the world, the answer is never the 400 of the
    content-type check.  When the storage calls up to the flush work, the
    handler creates the file, reads the empty last chunk at once, writes
    nothing, flushes, and asks the engine about the empty file; the engine's
    answer is the response when closing and deleting the file raise
    nothing. *)
Theorem C10_empty_upload_reaches_engine (w : world) (image : UploadFile)
    (d : gmap string bytes) :
  startswith (content_type image) "image/" = true ->
  file image = [] ->
  (forall detail, fst (handle w image d) <> Raise (HTTPException 400 detail)) /\
  (persists w d ->
   trace (snd (handle w image d)) =
     [EvCreate (tmp_name w); EvRead (1024 * 1024) []; EvFlush (tmp_name w);
      EvOcr (tmp_name w) "eng" (Some []); EvClose (tmp_name w);
      EvExists (tmp_name w) true; EvRemove (tmp_name w)] /\
   (close_fault w = None -> remove_fault w = None ->
    fst (handle w image d) =
      after_engine (engine w (tmp_name w) "eng" (Some [])))).
Proof.
  intros Hct Hempty. pose proof (accepted_startswith _ Hct) as Hacc. split.
  - intros detail Hout.
    now pose proof (error_status w image d _ _ Hacc Hout).
  - intros Hp.
    assert (Hloop : write_chunks w (length (file image)) (tmp_name w)
              (mkState (<[tmp_name w:=[]]> d) [] (file image) None
                       [EvCreate (tmp_name w)] []) =
              (Ok tt, mkState (<[tmp_name w:=[]]> d) (file image) [] None
                        (EvCreate (tmp_name w) :: [EvRead (1024 * 1024) []]) [])).
    { destruct Hp as (_ & _ & Hrd & _). rewrite Hempty.
      cbn [length write_chunks]. unfold bind, UploadFile_read, ret, log.
      cbn [stream]. now rewrite Hrd. }
    destruct (handle_after_loop w image d _ Hacc Hp Hloop) as (Hout & Htr & _).
    rewrite Hout, Htr, Hempty. split; [reflexivity|].
    now intros -> ->.
Qed.

Lemma C10_empty_png_witness :
  (forall detail,
     fst (handle (calm reads_nothing) empty_png ∅) <>
       Raise (HTTPException 400 detail)) /\
  (persists (calm reads_nothing) ∅ ->
   trace (snd (handle (calm reads_nothing) empty_png ∅)) =
     [EvCreate "/tmp/tmpk3x9a2"; EvRead (1024 * 1024) [];
      EvFlush "/tmp/tmpk3x9a2"; EvOcr "/tmp/tmpk3x9a2" "eng" (Some []);
      EvClose "/tmp/tmpk3x9a2"; EvExists "/tmp/tmpk3x9a2" true;
      EvRemove "/tmp/tmpk3x9a2"] /\
   (close_fault (calm reads_nothing) = None ->
    remove_fault (calm reads_nothing) = None ->
    fst (handle (calm reads_nothing) empty_png ∅) =
      after_engine (reads_nothing "/tmp/tmpk3x9a2" "eng" (Some [])))).
Proof.
  apply (C10_empty_upload_reaches_engine (calm reads_nothing) empty_png ∅).
  - reflexivity.
  - reflexivity.
Defined.

(** *** Order of the calls *)




(** ** Further properties of the handler *)

(** Following the handler down every path it can take for an accepted
    upload: the goal is left once per path, with the faults that select the
    path and the facts about the loop in the context. *)
Ltac walk w image d Hacc :=
  let lr := fresh "lr" in
  let buf := fresh "buf" in
  let rest := fresh "rest" in
  destruct (handler_loop w image d)
    as (lr & evs & buf & rest & Hrun & Htr & Hr);
  unfold handle, ocr_endpoint; rewrite check_accepted, Hacc;
  reduce; cbn [app];
  destruct (create_fault w) as [mc|] eqn:Hcreate; settle;
  [ | destruct (d !! tmp_name w) eqn:Hfree; settle;
      [ | rewrite Hrun; destruct lr as [[]|e];
          [ destruct Hr as (-> & -> & Hord); settle;
            destruct (flush_fault w) as [mf|] eqn:Hflush; settle;
            [ destruct (close_fault w) as [mx|] eqn:Hclose; settle
            | destruct (engine w (tmp_name w) "eng" (Some (file image)))
                as [t|e] eqn:Heng; [|destruct e]; settle;
              destruct (close_fault w) as [mx|] eqn:Hclose; settle;
              destruct (remove_fault w) as [mr|] eqn:Hremove; settle ]
          | destruct Hr as [(m & -> & Hwhy) Hord]; settle;
            destruct (close_fault w) as [mx|] eqn:Hclose; settle ] ] ].

(** No file but the transient one is created, changed or deleted. *)
Lemma handle_frame (w : world) (image : UploadFile) (d : gmap string bytes)
    (q : string) :
  q <> tmp_name w ->
  disk (snd (handle w image d)) !! q = d !! q.
Proof.
  intros Hq. destruct (accepted image) eqn:Hacc.
  2:{ now rewrite (handle_rejected w image d Hacc). }
  walk w image d Hacc;
    rewrite ?lookup_delete_ne, ?lookup_alter_ne, ?lookup_insert_ne by congruence;
    reflexivity.
Qed.

(** *** The chunks of the streaming loop *)





(** *** [perform_ocr_sync] on its own *)

(** X1: [perform_ocr_sync] calls the engine once, on the path it was given
    and for "eng", and touches nothing else: the disk, the buffer, the upload
    and the local are as before.  It returns the engine's text without
    printing, or prints one line and raises; what it raises is always a
    [RuntimeError], whatever the engine raised. *)
Theorem X1_ocr_wrapper_raises_RuntimeError (w : world) (path : string)
    (s : state) :
  let r := fst (perform_ocr_sync w path s) in
  let s' := snd (perform_ocr_sync w path s) in
  disk s' = disk s /\ buffer s' = buffer s /\ stream s' = stream s /\
  filepath s' = filepath s /\
  trace s' = trace s ++ [EvOcr path "eng" (disk s !! path)] /\
  match r with
  | Ok t =>
      engine w path "eng" (disk s !! path) = Ok t /\ stdout s' = stdout s
  | Raise e =>
      (exists m, e = RuntimeError m) /\
      (exists line, stdout s' = stdout s ++ [line])
  end.
Proof.
  unfold perform_ocr_sync, try_except, image_to_string, bind, print, raise, log.
  destruct (engine w path "eng" (disk s !! path)) as [t|e] eqn:Heng; cbn.
  - repeat split.
  - destruct e; cbn; repeat split; eauto.
Qed.

(** *** The content-type check *)

Lemma prefix_append (pre t : string) :
  String.prefix pre t = true <-> exists rest, t = pre +:+ rest.
Proof.
  revert t. induction pre as [|a pre IH]; intros t.
  - destruct t; cbn; split; eauto.
  - destruct t as [|b t]; cbn.
    + split; [discriminate|]. intros [rest Hrest]. discriminate.
    + destruct (ascii_dec a b) as [->|Hne].
      * rewrite IH. split; intros [rest Hrest]; exists rest.
        -- now rewrite Hrest.
        -- now injection Hrest.
      * split; [discriminate|]. intros [rest Hrest].
        injection Hrest as Hab _. now subst.
Qed.

(** X2: line 44 accepts exactly the uploads whose declared content type is
    the text "image/" followed by anything, nothing included; the comparison
    is by character, so an absent type, the empty type and "IMAGE/PNG" are
    all refused. *)
Theorem X2_accepted_types (image : UploadFile) :
  (accepted image = true <->
   exists subtype, content_type image = Some ("image/" +:+ subtype)) /\
  accepted (mkUpload (Some "image/") (file image)) = true /\
  accepted (mkUpload (Some "IMAGE/PNG") (file image)) = false /\
  accepted (mkUpload (Some "") (file image)) = false /\
  accepted (mkUpload None (file image)) = false.
Proof.
  split; [|repeat split].
  unfold accepted, startswith, truthy.
  destruct (content_type image) as [t|].
  - split.
    + intros H. apply andb_prop in H as [_ H].
      apply prefix_append in H as [rest ->]. now exists rest.
    + intros [rest [= ->]]. cbn [append andb].
      apply prefix_append. now exists rest.
  - split; [discriminate|]. intros [rest H]. discriminate.
Qed.

(** *** Status codes *)

(** X3: every request is answered with 200, 400 or 500, and the answer is
    400 exactly when the content type was refused at line 44. *)
Theorem X3_status_codes (w : world) (image : UploadFile)
    (d : gmap string bytes) :
  let code := status (respond (fst (handle w image d))) in
  (code = 200 \/ code = 400 \/ code = 500)%Z /\
  (code = 400%Z <-> accepted image = false).
Proof.
  destruct (accepted image) eqn:Hacc.
  2:{ rewrite (handle_rejected w image d Hacc). cbn. tauto. }
  assert (Hcode : (status (respond (fst (handle w image d))) = 200 \/
                   status (respond (fst (handle w image d))) = 500)%Z).
  { destruct (handle_paths w image d Hacc)
      as (evs & _ & [(Ho & _)|[(Ho & _)|[(Ho & _)|(Ho & _)]]]);
      rewrite Ho; try (now right).
    destruct (remove_fault w); [now right|].
    destruct (close_fault w); [now right|].
    destruct (engine w (tmp_name w) "eng" (Some (file image))) as [t|[]];
      cbn; auto. }
  cbn zeta. split; [tauto|].
  split; [|discriminate]. intros H400. rewrite H400 in Hcode.
  destruct Hcode; discriminate.
Qed.

(** *** The disk *)

(** X5: in every world, whatever happens to the request, no file but the
    transient one is created, changed or deleted. *)
Theorem X5_other_files_untouched (w : world) (image : UploadFile)
    (d : gmap string bytes) (q : string) :
  q <> tmp_name w ->
  disk (snd (handle w image d)) !! q = d !! q.
Proof. apply handle_frame. Qed.

Lemma X5_other_file_witness :
  disk (snd (handle disk_full png {["/srv/keep.txt" := [Byte.x6f; Byte.x6b]]}))
    !! "/srv/keep.txt" =
  ({["/srv/keep.txt" := [Byte.x6f; Byte.x6b]]} : gmap string bytes)
    !! "/srv/keep.txt".
Proof.
  apply (X5_other_files_untouched disk_full png
           {["/srv/keep.txt" := [Byte.x6f; Byte.x6b]]} "/srv/keep.txt").
  vm_compute. discriminate.
Defined.

Lemma handle_restores_disk (w : world) (image : UploadFile)
    (d : gmap string bytes) :
  accepted image = true -> persists w d -> remove_fault w = None ->
  disk (snd (handle w image d)) = d.
Proof.
  intros Hacc Hp Hrm. apply map_eq. intros q.
  destruct (decide (q = tmp_name w)) as [->|Hq].
  - destruct (handle_nominal w image d Hacc Hp) as (evs & _ & _ & _ & _ & Hd).
    rewrite Hd, Hrm. destruct Hp as (_ & Hfree & _). now rewrite Hfree.
  - now apply handle_frame.
Qed.

(** X6: a request whose upload is stored without a fault and whose file is
    deleted without a fault leaves the disk exactly as it found it, whatever
    the engine answered and whether or not closing the file raised; a request
    served next is served as if the first had not been. *)
Theorem X6_disk_is_restored (w : world) (image : UploadFile)
    (d : gmap string bytes) :
  accepted image = true -> persists w d -> remove_fault w = None ->
  disk (snd (handle w image d)) = d /\
  (forall w' image',
     handle w' image' (disk (snd (handle w image d))) = handle w' image' d).
Proof.
  intros Hacc Hp Hrm.
  pose proof (handle_restores_disk w image d Hacc Hp Hrm) as Hd.
  split; [exact Hd|]. intros w' image'. now rewrite Hd.
Qed.

Lemma X6_unreadable_witness :
  disk (snd (handle (calm unreadable) png ∅)) = ∅ /\
  (forall w' image',
     handle w' image' (disk (snd (handle (calm unreadable) png ∅))) =
     handle w' image' ∅).
Proof.
  apply (X6_disk_is_restored (calm unreadable) png ∅).
  - reflexivity.
  - repeat split; intros; reflexivity.
  - reflexivity.
Defined.

(** *** What an outcome tells *)

Lemma transfer_not_remove (evs : list event) :
  forallb is_transfer evs = true -> existsb is_remove evs = false.
Proof.
  induction evs as [|ev evs IH]; [reflexivity|]. cbn [forallb existsb].
  intros H. apply andb_prop in H as [Hev Hevs].
  rewrite (IH Hevs). now destruct ev.
Qed.

(** X4: a request is answered normally only when everything worked.  If the
    handler returns a dict, then the upload was accepted, the dict has the
    one key "raw_text_from_img" and under it the very text the engine
    returned for the whole upload, neither closing nor deleting the file
    raised, the file is gone from the disk, and nothing was printed. *)
Theorem X4_a_returned_dict_is_the_engine_text (w : world) (image : UploadFile)
    (d : gmap string bytes) (answer : dict) :
  fst (handle w image d) = Ok answer ->
  accepted image = true /\
  (exists t, answer = [("raw_text_from_img", t)] /\
             engine w (tmp_name w) "eng" (Some (file image)) = Ok t) /\
  close_fault w = None /\ remove_fault w = None /\
  disk (snd (handle w image d)) !! tmp_name w = None /\
  stdout (snd (handle w image d)) = [].
Proof.
  destruct (accepted image) eqn:Hacc.
  2:{ now rewrite (handle_rejected w image d Hacc). }
  walk w image d Hacc; intros Hout; try discriminate.
  injection Hout as <-. rewrite lookup_delete_eq. repeat split; eauto.
Qed.

Lemma X4_empty_text_witness :
  accepted png = true /\
  (exists t, [("raw_text_from_img", "")] = [("raw_text_from_img", t)] /\
             engine (calm reads_nothing) (tmp_name (calm reads_nothing)) "eng"
               (Some (file png)) = Ok t) /\
  close_fault (calm reads_nothing) = None /\
  remove_fault (calm reads_nothing) = None /\
  disk (snd (handle (calm reads_nothing) png ∅))
    !! tmp_name (calm reads_nothing) = None /\
  stdout (snd (handle (calm reads_nothing) png ∅)) = [].
Proof.
  apply (X4_a_returned_dict_is_the_engine_text (calm reads_nothing) png ∅
           [("raw_text_from_img", "")]).
  vm_compute. reflexivity.
Defined.

(** *** Failures before the engine *)

(** X7: when the transient file was created but the request never got as far
    as the engine (a read, a write or the flush raised), the answer is the
    500 of a storage failure, [filepath] is still unbound, [os.remove] is
    never called, and the file is left on the disk. *)
Theorem X7_file_left_when_engine_not_reached (w : world) (image : UploadFile)
    (d : gmap string bytes) :
  accepted image = true ->
  create_fault w = None ->
  d !! tmp_name w = None ->
  existsb is_ocr (trace (snd (handle w image d))) = false ->
  fst (handle w image d) = Raise (HTTPException 500 GENERIC_DETAIL) /\
  filepath (snd (handle w image d)) = None /\
  existsb is_remove (trace (snd (handle w image d))) = false /\
  is_Some (disk (snd (handle w image d)) !! tmp_name w).
Proof.
  intros Hacc Hc Hf.
  walk w image d Hacc; try congruence;
    cbn [existsb is_ocr is_remove]; rewrite ?existsb_app;
    cbn [existsb is_ocr is_remove]; rewrite ?orb_true_r, ?orb_false_r;
    intros Hocr; try discriminate;
    rewrite (transfer_not_remove _ Htr); repeat split; eauto.
Qed.

Lemma X7_disk_full_witness :
  fst (handle disk_full png ∅) = Raise (HTTPException 500 GENERIC_DETAIL) /\
  filepath (snd (handle disk_full png ∅)) = None /\
  existsb is_remove (trace (snd (handle disk_full png ∅))) = false /\
  is_Some (disk (snd (handle disk_full png ∅)) !! tmp_name disk_full).
Proof.
  apply (X7_file_left_when_engine_not_reached disk_full png ∅).
  - reflexivity.
  - reflexivity.
  - reflexivity.
  - vm_compute. reflexivity.
Defined.

(** X10: when the transient file cannot be created, the upload is not read,
    nothing is written, the disk is as before, the operating system's message
    goes to standard output only, and the answer is the 500 with the fixed
    detail. *)
Theorem X10_no_file_no_read (w : world) (image : UploadFile)
    (d : gmap string bytes) (m : string) :
  accepted image = true ->
  create_fault w = Some m ->
  handle w image d =
    (Raise (HTTPException 500 GENERIC_DETAIL),
     mkState d [] (file image) None [EvCreate (tmp_name w)]
             ["File handling error: " +:+ m]).
Proof.
  intros Hacc Hc. unfold handle, ocr_endpoint. rewrite check_accepted, Hacc.
  reduce. now rewrite Hc.
Qed.

(** *** Closing the file *)



Lemma X10_read_only_witness :
  handle no_tmp_dir png ∅ =
    (Raise (HTTPException 500 GENERIC_DETAIL),
     mkState ∅ [] (file png) None [EvCreate (tmp_name no_tmp_dir)]
             ["File handling error: " +:+ "Read-only file system"]).
Proof.
  apply (X10_no_file_no_read no_tmp_dir png ∅ "Read-only file system").
  - reflexivity.
  - reflexivity.
Defined.

(** *** What is written *)


(** *** How often the collaborators are called *)

Lemma transfer_filtered (f : event -> bool) (evs : list event) :
  (forall ev, is_transfer ev = true -> f ev = false) ->
  forallb is_transfer evs = true -> List.filter f evs = [].
Proof.
  intros Hf. induction evs as [|ev evs IH]; [reflexivity|].
  cbn [forallb List.filter]. intros H. apply andb_prop in H as [Hev Hevs].
  now rewrite (Hf _ Hev), (IH Hevs).
Qed.

(** X11: in every world a request creates at most one file, calls the engine
    at most once and calls [os.remove] at most once; and it calls [os.remove]
    only if it has called the engine. *)
Theorem X11_at_most_once (w : world) (image : UploadFile)
    (d : gmap string bytes) :
  length (List.filter is_create (trace (snd (handle w image d)))) <= 1 /\
  length (List.filter is_ocr (trace (snd (handle w image d)))) <= 1 /\
  length (List.filter is_remove (trace (snd (handle w image d)))) <=
    length (List.filter is_ocr (trace (snd (handle w image d)))).
Proof.
  destruct (accepted image) eqn:Hacc.
  2:{ rewrite (handle_rejected w image d Hacc). cbn. lia. }
  assert (Hc : forall ev, is_transfer ev = true -> is_create ev = false)
    by (now intros []).
  assert (Ho : forall ev, is_transfer ev = true -> is_ocr ev = false)
    by (now intros []).
  assert (Hr : forall ev, is_transfer ev = true -> is_remove ev = false)
    by (now intros []).
  destruct (handle_paths w image d Hacc)
    as (evs & Htr & [(_ & Ht & _)|[(_ & Ht & _)|[(_ & Ht & _)|(_ & Ht & _)]]]);
    rewrite Ht; cbn [List.filter is_create is_ocr is_remove];
    rewrite ?List.filter_app, ?(transfer_filtered _ _ Hc Htr),
      ?(transfer_filtered _ _ Ho Htr), ?(transfer_filtered _ _ Hr Htr);
    cbn; lia.
Qed.

(** *** Cleanup and the error in flight *)




(** *** The steps of a request *)




